(** * remote_server.py: the rollout worker and its dispatcher

    A shallow embedding of [src/remote_server.py].  The FastAPI handler
    [init] registers a [RolloutIdFilter] on a logger named after the
    rollout, then starts a daemon thread running the closure [_worker];
    the worker performs one chat completion and reports through the
    logger.  Everything the module reaches outside itself (the OpenAI
    client, the process environment) is an oracle of type [World]; what
    the module does to the outside (log records handed to the handlers,
    client construction, the completion call) is an ordered list of
    [Event]s in the process state. *)

From Stdlib Require Import ZArith QArith.
From stdpp Require Import gmap strings list fin_maps.

Open Scope string_scope.
Open Scope list_scope.

Set Warnings "-register-all".

(** ** Python values ([Any] in [Dict[str, Any]]) *)

Inductive value :=
| VNone
| VBool (b : bool)
| VInt (z : Z)
| VFloat (q : Q)
| VStr (s : string)
| VList (l : list value)
| VDict (d : list (string * value)).

(** Python truth value testing, as used by [if not x] / [if x]. *)
Definition truthy (v : value) : bool :=
  match v with
  | VNone => false
  | VBool b => b
  | VInt z => negb (z =? 0)%Z
  | VFloat q => negb (Qeq_bool q 0)
  | VStr s => negb (String.eqb s "")
  | VList l => negb (bool_decide (length l = 0))
  | VDict d => negb (bool_decide (length d = 0))
  end.

(** Truth value of an [Optional[List[_]]] attribute: [None] and [[]] are
    both false. *)
Definition truthy_list {A} (o : option (list A)) : bool :=
  match o with
  | None => false
  | Some [] => false
  | Some (_ :: _) => true
  end.

(** Truth value of an [Optional[str]]: [None] and the empty string are
    both false. *)
Definition truthy_str (o : option string) : bool :=
  match o with
  | None => false
  | Some s => negb (String.eqb s "")
  end.

(** [d.get(k)]: the value under [k], [None] when the key is absent. *)
Definition dict_get (d : gmap string value) (k : string) : value :=
  default VNone (d !! k).

(** ** The request model (eval_protocol's [InitRequest]) *)

Record Message := { role : string; content : string }.

Record RolloutMetadata := { rollout_id : string }.

Record InitRequest := {
  metadata : RolloutMetadata;
  messages : option (list Message);
  completion_params : gmap string value;
  tools : option (list value);
  model_base_url : option string
}.

(** ** The status taxonomy (eval_protocol's [Status]) *)

Module Status.
Inductive t :=
| Running
| Finished
| Error (message : string).

Definition rollout_finished : t := Finished.
Definition rollout_error (message : string) : t := Error message.

(** A terminal status concludes the rollout; [Running] does not. *)
Definition is_terminal (s : t) : bool :=
  match s with
  | Running => false
  | Finished | Error _ => true
  end.
End Status.

(** ** Exceptions

    Instances of Python's [Exception]: the two raised by the worker
    itself and the errors of the OpenAI client (construction without a
    credential, connection, authentication and provider errors, argument
    errors), which carry their class name. *)
Inductive exn :=
| ValueError (msg : string)
| RuntimeError (msg : string)
| LibraryError (cls msg : string).

Inductive result (A : Type) :=
| Returns (a : A)
| Raises (e : exn).
Arguments Returns {A} a.
Arguments Raises {A} e.

(** ** The outbound call *)

(** A keyword argument of [client.chat.completions.create]: the request's
    [messages] and [tools] attributes as they are, or an entry of
    [completion_params]. *)
Inductive arg :=
| ArgMessages (ms : option (list Message))
| ArgTools (ts : option (list value))
| ArgParam (v : value).

Record OpenAI := { base_url : option string; api_key : option string }.

Record ChatCompletion := { completion_repr : string }.

(** ** Log records *)

Inductive Level := DEBUG | INFO | WARNING | ERROR | CRITICAL.

(** A message: literal text, and for an f-string the objects interpolated
    in it. *)
Inductive fragment :=
| Lit (s : string)
| FmtStr (s : string)
| FmtValue (v : value)
| FmtKwargs (kw : gmap string arg)
| FmtCompletion (c : ChatCompletion)
| FmtExn (e : exn).

Record LogRecord := {
  name : string;
  levelno : Level;
  msg : list fragment;
  status : option Status.t;
  record_rollout_id : option string
}.

(** eval_protocol's [RolloutIdFilter]: its [filter] stamps the rollout id
    on the record and lets the record through. *)
Record RolloutIdFilter := { filter_rollout_id : string }.

Definition RolloutIdFilter_filter (f : RolloutIdFilter) (r : LogRecord) : LogRecord :=
  {| name := name r; levelno := levelno r; msg := msg r; status := status r;
     record_rollout_id := Some (filter_rollout_id f) |}.

(** ** The process *)

Inductive Event :=
| EvLog (r : LogRecord)
| EvOpenAI (base_url api_key : option string)
| EvCreate (client : OpenAI) (kw : gmap string arg).

(** A started thread: the closure [_worker] is its code, [req] and
    [logger] are the variables of [init] it captures. *)
Record Thread := {
  target_req : InitRequest;
  target_logger : string;
  daemon : bool
}.

Record State := {
  force_early_error_message : option string;
  filters : gmap string (list RolloutIdFilter);
  events : list Event;
  threads : list Thread
}.

(** The outside of the module: the environment variables, and the outcome
    of constructing a client and of the completion call. *)
Record World := {
  environ : gmap string string;
  OpenAI_new : option string -> option string -> result OpenAI;
  chat_completions_create : OpenAI -> gmap string arg -> result ChatCompletion
}.

Definition __name__ : string := "__main__".

Definition initial_state : State :=
  {| force_early_error_message := None; filters := ∅; events := [];
     threads := [] |}.

(** ** A state and exception monad for the statements of the module *)

Definition M (A : Type) : Type := State -> result A * State.

Definition ret {A} (a : A) : M A := fun st => (Returns a, st).

Definition raise {A} (e : exn) : M A := fun st => (Raises e, st).

Definition bind {A B} (k : A -> M B) (m : M A) : M B :=
  fun st =>
    match m st with
    | (Returns a, st') => k a st'
    | (Raises e, st') => (Raises e, st')
    end.

#[export] Instance M_ret : MRet M := @ret.
#[export] Instance M_bind : MBind M := @bind.

(** [try: body / except Exception as e: handler e / finally: final].
    Every [exn] is an instance of [Exception], so the handler takes each
    exception of the body.  An exception of the handler, or of [final],
    leaves the statement; [final] runs on every path. *)
Definition try_except_finally (body : M unit) (handler : exn -> M unit)
    (final : M unit) : M unit :=
  fun st =>
    match body st with
    | (Returns _, st1) => final st1
    | (Raises e, st1) =>
        match handler e st1 with
        | (Returns _, st2) => final st2
        | (Raises e', st2) =>
            match final st2 with
            | (Returns _, st3) => (Raises e', st3)
            | (Raises e'', st3) => (Raises e'', st3)
            end
        end
    end.

Definition emit (ev : Event) : M unit :=
  fun st =>
    (Returns tt,
     {| force_early_error_message := force_early_error_message st;
        filters := filters st; events := events st ++ [ev];
        threads := threads st |}).

Definition get_force_early_error_message : M (option string) :=
  fun st => (Returns (force_early_error_message st), st).

(** ** Logging *)

(** [logging.getLogger(name)]: loggers are process-wide, one per name. *)
Definition getLogger (name : string) : string := name.

Definition logger_filters (st : State) (logger : string) : list RolloutIdFilter :=
  default [] (filters st !! logger).

(** [logger.addFilter(f)] with a filter object constructed for the call:
    the filter is appended to the logger's list. *)
Definition addFilter (logger : string) (f : RolloutIdFilter) (st : State) : State :=
  {| force_early_error_message := force_early_error_message st;
     filters := <[logger := logger_filters st logger ++ [f]]> (filters st);
     events := events st; threads := threads st |}.

(** Python's numeric value of a level. *)
Definition level_value (l : Level) : Z :=
  match l with
  | DEBUG => 10
  | INFO => 20
  | WARNING => 30
  | ERROR => 40
  | CRITICAL => 50
  end.

(** [logger.getEffectiveLevel()].  The module sets no level on a logger
    and does not configure logging: a logger it gets from [getLogger] has
    no level of its own and takes the level of the root logger, which is
    WARNING. *)
Definition getEffectiveLevel (logger : string) : Z := level_value WARNING.

(** [logger.isEnabledFor(level)] *)
Definition isEnabledFor (logger : string) (level : Level) : bool :=
  (getEffectiveLevel logger <=? level_value level)%Z.

(** A logging call.  Below the logger's effective level it does nothing;
    otherwise the record is made, passes the logger's filters in order,
    and is handed on to the handlers. *)
Definition log (logger : string) (level : Level) (message : list fragment)
    (extra_status : option Status.t) : M unit :=
  fun st =>
    if isEnabledFor logger level then
      let r := {| name := logger; levelno := level; msg := message;
                  status := extra_status; record_rollout_id := None |} in
      emit (EvLog (foldl (fun r f => RolloutIdFilter_filter f r) r
                     (logger_filters st logger))) st
    else (Returns tt, st).

Definition logger_info := fun logger => log logger INFO.
Definition logger_error := fun logger => log logger ERROR.

(** ** The external calls *)

(** What an external call does: it returns or it raises. *)
Definition outcome {A} (r : result A) : M A := fun st => (r, st).

Definition new_OpenAI (w : World) (base_url api_key : option string) : M OpenAI :=
  emit (EvOpenAI base_url api_key);;
  outcome (OpenAI_new w base_url api_key).

Definition create (w : World) (client : OpenAI) (kwargs : gmap string arg)
  : M ChatCompletion :=
  emit (EvCreate client kwargs);;
  outcome (chat_completions_create w client kwargs).

(** ** [_worker] *)

(** [{"messages": req.messages, **req.completion_params}]: an entry of
    [completion_params] replaces the one under the same key. *)
Definition spread_completion_params (req : InitRequest) : gmap string arg :=
  (ArgParam <$> completion_params req) ∪ {["messages" := ArgMessages (messages req)]}.

Definition completion_kwargs (req : InitRequest) : gmap string arg :=
  if truthy_list (tools req)
  then <["tools" := ArgTools (tools req)]> (spread_completion_params req)
  else spread_completion_params req.

Definition worker_body (w : World) (req : InitRequest) (logger : string) : M unit :=
  if negb (truthy_list (messages req)) then
    raise (ValueError "messages is required")
  else
    let model := dict_get (completion_params req) "model" in
    if negb (truthy model) then
      raise (ValueError "model is required in completion_params")
    else
      let completion_kwargs := completion_kwargs req in
      logger_info logger
        [Lit "Final completion_kwargs: "; FmtKwargs completion_kwargs] None;;
      client ← new_OpenAI w (model_base_url req)
                  (environ w !! "FIREWORKS_API_KEY");
      logger_info logger
        [Lit "Sending completion request to model "; FmtValue model] None;;
      completion ← create w client completion_kwargs;
      logger_info logger
        [Lit "Completed response: "; FmtCompletion completion] None;;
      m ← get_force_early_error_message;
      if truthy_str m then
        logger_error logger [Lit (default "" m)]
          (Some (Status.rollout_error (default "" m)));;
        raise (RuntimeError (default "" m))
      else ret tt.

Definition worker_handler (req : InitRequest) (logger : string) (e : exn) : M unit :=
  logger_error logger
    [Lit "❌ Error in rollout "; FmtStr (rollout_id (metadata req)); Lit ": ";
     FmtExn e] None.

Definition worker_finally (req : InitRequest) (logger : string) : M unit :=
  m ← get_force_early_error_message;
  if negb (truthy_str m) then
    logger_info logger
      [Lit "Rollout "; FmtStr (rollout_id (metadata req)); Lit " completed"]
      (Some Status.rollout_finished)
  else ret tt.

Definition _worker (w : World) (req : InitRequest) (logger : string) : M unit :=
  try_except_finally (worker_body w req logger) (worker_handler req logger)
    (worker_finally req logger).


(** ** [init] *)

Definition add_filter (logger : string) (f : RolloutIdFilter) : M unit :=
  fun st => (Returns tt, addFilter logger f st).

(** [t.start()]: the thread joins the started threads of the process. *)
Definition start (t : Thread) : M unit :=
  fun st =>
    (Returns tt,
     {| force_early_error_message := force_early_error_message st;
        filters := filters st; events := events st;
        threads := threads st ++ [t] |}).

Definition init_logger (req : InitRequest) : string :=
  getLogger (__name__ +:+ "." +:+ rollout_id (metadata req)).

Definition init_thread (req : InitRequest) : Thread :=
  {| target_req := req; target_logger := init_logger req; daemon := true |}.

Definition init (req : InitRequest) : M unit :=
  let logger := init_logger req in
  add_filter logger {| filter_rollout_id := rollout_id (metadata req) |};;
  let t := init_thread req in
  start t.

(** ** [main] *)

Record Args := {
  host : string;
  port : Z;
  force_early_error : option string
}.

(** [main] assigns the global from the command line before it serves. *)
Definition main (args : Args) (st : State) : State :=
  {| force_early_error_message := force_early_error args;
     filters := filters st; events := events st; threads := threads st |}.

(** ** Running the process *)

(** A started thread runs its target. *)
Definition run (w : World) (t : Thread) : M unit :=
  _worker w (target_req t) (target_logger t).

(** What the process does next: it serves a request to [/init], or one
    of its started threads runs, in a world [w]. *)
Inductive Op :=
| OpInit (req : InitRequest)
| OpRun (i : nat) (w : World).

Definition take_thread (i : nat) (st : State) : State :=
  {| force_early_error_message := force_early_error_message st;
     filters := filters st; events := events st;
     threads := delete i (threads st) |}.

Definition step (st : State) (op : Op) : State :=
  match op with
  | OpInit req => (init req st).2
  | OpRun i w =>
      match threads st !! i with
      | Some t => (run w t (take_thread i st)).2
      | None => st
      end
  end.

Definition serve (args : Args) (ops : list Op) : State :=
  foldl step (main args initial_state) ops.

(** ** Reading the event list *)

Definition records (evs : list Event) : list LogRecord :=
  omap (fun ev => match ev with EvLog r => Some r | _ => None end) evs.

(** The events a computation adds to those of the state it starts in. *)
Definition emitted (st st' : State) : list Event :=
  drop (length (events st)) (events st').

Definition terminal_status (rid : string) (r : LogRecord) : option Status.t :=
  if bool_decide (record_rollout_id r = Some rid) then
    match status r with
    | Some s => if Status.is_terminal s then Some s else None
    | None => None
    end
  else None.

(** The records tagged with [rid], in order. *)
Definition records_for (rid : string) (evs : list Event) : list LogRecord :=
  List.filter (fun r => bool_decide (record_rollout_id r = Some rid)) (records evs).

(** The terminal statuses reported for [rid], in order. *)
Definition terminal_statuses (rid : string) (evs : list Event) : list Status.t :=
  omap (terminal_status rid) (records evs).

(** The rollout of a request: [init] serves it, then the thread that
    [init] started runs in world [w]. *)
Definition rollout (w : World) (req : InitRequest) (st : State) : result unit * State :=
  run w (init_thread req) (init req st).2.

(** * Properties *)

(** ** The expected records and events *)

Definition add_events (evs : list Event) (st : State) : State :=
  {| force_early_error_message := force_early_error_message st;
     filters := filters st; events := events st ++ evs;
     threads := threads st |}.

(** A record of logger [lg] stamped with [rid]. *)
Definition stamped (lg rid : string) (lvl : Level) (m : list fragment)
    (s : option Status.t) : Event :=
  EvLog {| name := lg; levelno := lvl; msg := m; status := s;
           record_rollout_id := Some rid |}.

Definition ev_override (lg rid m : string) : Event :=
  stamped lg rid ERROR [Lit m] (Some (Status.Error m)).

Definition ev_exception (lg rid : string) (req : InitRequest) (e : exn) : Event :=
  stamped lg rid ERROR
    [Lit "❌ Error in rollout "; FmtStr (rollout_id (metadata req)); Lit ": ";
     FmtExn e] None.

(** The request passes the two checks at the head of [_worker]. *)
Definition valid (req : InitRequest) : bool :=
  truthy_list (messages req) && truthy (dict_get (completion_params req) "model").

(** The exception the checks raise on a request that is not [valid]. *)
Definition validation_error (req : InitRequest) : exn :=
  if truthy_list (messages req)
  then ValueError "model is required in completion_params"
  else ValueError "messages is required".

(** The logger's filters end with one for [rid]. *)
Definition scoped (st : State) (lg rid : string) : Prop :=
  ∃ fs, logger_filters st lg = fs ++ [ {| filter_rollout_id := rid |} ].

(** ** Concrete requests, worlds and states *)

Definition hi_message : Message := {| role := "user"; content := "hi" |}.

(** [messages=[{role:"user", content:"hi"}]], [completion_params={"model":"m"}]. *)
Definition hi_request (rid : string) : InitRequest :=
  {| metadata := {| rollout_id := rid |};
     messages := Some [hi_message];
     completion_params := {[ "model" := VStr "m" ]};
     tools := None; model_base_url := None |}.

(** The same request with [messages=[]]. *)
Definition empty_messages_request (rid : string) : InitRequest :=
  {| metadata := {| rollout_id := rid |};
     messages := Some [];
     completion_params := {[ "model" := VStr "m" ]};
     tools := None; model_base_url := None |}.

(** The same request with [tools=[]]. *)
Definition empty_tools_request (rid : string) : InitRequest :=
  {| metadata := {| rollout_id := rid |};
     messages := Some [hi_message];
     completion_params := {[ "model" := VStr "m" ]};
     tools := Some []; model_base_url := None |}.

Definition the_client (base_url api_key : option string) : OpenAI :=
  {| base_url := base_url; api_key := api_key |}.

(** A world with a credential where both calls succeed. *)
Definition world_ok : World :=
  {| environ := {[ "FIREWORKS_API_KEY" := "fw-key" ]};
     OpenAI_new := fun b k => Returns (the_client b k);
     chat_completions_create :=
       fun _ _ => Returns {| completion_repr := "ChatCompletion(...)" |} |}.

Definition connection_error : exn :=
  LibraryError "APIConnectionError" "Connection error.".

(** A world where the provider cannot be reached: the completion call
    raises. *)
Definition world_down : World :=
  {| environ := {[ "FIREWORKS_API_KEY" := "fw-key" ]};
     OpenAI_new := fun b k => Returns (the_client b k);
     chat_completions_create := fun _ _ => Raises connection_error |}.

(** The process started with [--force-early-error boom]. *)
Definition boom_state : State :=
  main {| host := "127.0.0.1"; port := 3000; force_early_error := Some "boom" |}
    initial_state.

(** Each logger's filters in [st] are still there, in place, in [st']. *)
Definition filters_kept (st st' : State) : Prop :=
  ∀ lg, logger_filters st lg `prefix_of` logger_filters st' lg.

(** The event is a call out of the process, not a log record. *)
Definition is_call (ev : Event) : bool :=
  match ev with
  | EvLog _ => false
  | EvOpenAI _ _ | EvCreate _ _ => true
  end.

(** ** More readings of the event list *)

(** The client constructions in an event list: base URL and credential. *)
Definition client_constructions (evs : list Event)
  : list (option string * option string) :=
  omap (fun ev => match ev with EvOpenAI b k => Some (b, k) | _ => None end) evs.

(** The completion calls in an event list: client and arguments. *)
Definition completion_calls (evs : list Event) : list (OpenAI * gmap string arg) :=
  omap (fun ev => match ev with EvCreate c kw => Some (c, kw) | _ => None end) evs.

(** The record is one of logger [lg] and carries rollout id [rid]. *)
Definition tagged (lg rid : string) (r : LogRecord) : Prop :=
  name r = lg ∧ record_rollout_id r = Some rid.

(** ** More concrete requests, worlds and command lines *)

(** The "hi" request with [completion_params={"model": ""}]. *)
Definition empty_model_request (rid : string) : InitRequest :=
  {| metadata := {| rollout_id := rid |};
     messages := Some [hi_message];
     completion_params := {[ "model" := VStr "" ]};
     tools := None; model_base_url := None |}.

Definition missing_credential : exn :=
  LibraryError "OpenAIError" "The api_key client option must be set".

(** A world without [FIREWORKS_API_KEY], where the client refuses to be
    constructed without a credential. *)
Definition world_no_key : World :=
  {| environ := ∅;
     OpenAI_new := fun b k =>
       match k with
       | Some _ => Returns (the_client b k)
       | None => Raises missing_credential
       end;
     chat_completions_create :=
       fun _ _ => Returns {| completion_repr := "ChatCompletion(...)" |} |}.

(** [--force-early-error ""]. *)
Definition args_empty_override : Args :=
  {| host := "127.0.0.1"; port := 3000; force_early_error := Some "" |}.

(** [--force-early-error boom]. *)
Definition args_boom : Args :=
  {| host := "127.0.0.1"; port := 3000; force_early_error := Some "boom" |}.

(** * quickstart.py

    The test of the quickstart, as a function of the row that the remote
    rollout hands to it.  Of eval_protocol's [EvaluationRow] it reads the
    messages and the rollout id of the execution metadata. *)

Module Quickstart.

Record ExecutionMetadata := { rollout_id : option string }.

Record EvaluationRow := {
  messages : list Message;
  execution_metadata : ExecutionMetadata
}.

Inductive error :=
| AssertionError (msg : string)
| IndexError (msg : string).

(** [rows()]: one row, three times.  [EvaluationRow(messages=...)] fills
    in the execution metadata itself, with an id it generates: [meta] is
    what it fills in. *)
Definition rows (meta : ExecutionMetadata) : list EvaluationRow :=
  let row :=
    {| messages := [ {| role := "user"; content := "What is the capital of France?" |} ];
       execution_metadata := meta |} in
  [row; row; row].

(** The body of the test: [row.messages[0]] raises [IndexError] on an
    empty list, each [assert] raises [AssertionError] with its message. *)
Definition test_remote_rollout_and_fetch_fireworks (row : EvaluationRow)
  : error + EvaluationRow :=
  match messages row !! 0 with
  | None => inl (IndexError "list index out of range")
  | Some m0 =>
      if negb (String.eqb (content m0) "What is the capital of France?") then
        inl (AssertionError "Row should have correct message content")
      else if negb (Nat.ltb 1 (length (messages row))) then
        inl (AssertionError
               "Row should have a response. If this fails, we fellback to the original row.")
      else if negb (truthy_str (rollout_id (execution_metadata row))) then
        inl (AssertionError "Row should have a rollout_id from the remote rollout")
      else inr row
  end.

End Quickstart.

(** ** Filters *)

Lemma filter_fields f r :
  let r' := RolloutIdFilter_filter f r in
  name r' = name r ∧ levelno r' = levelno r ∧ msg r' = msg r ∧ status r' = status r.
Proof. by destruct r. Qed.

Lemma stamp_fields fs : ∀ r,
  let r' := foldl (λ r f, RolloutIdFilter_filter f r) r fs in
  name r' = name r ∧ levelno r' = levelno r ∧ msg r' = msg r ∧ status r' = status r.
Proof.
  induction fs as [|f fs IH]; intros r; simpl; [done|].
  destruct (IH (RolloutIdFilter_filter f r)) as (-> & -> & -> & ->). apply filter_fields.
Qed.

Lemma stamp_snoc fs f r :
  foldl (λ r f, RolloutIdFilter_filter f r) r (fs ++ [f]) =
  {| name := name r; levelno := levelno r; msg := msg r; status := status r;
     record_rollout_id := Some (filter_rollout_id f) |}.
Proof.
  rewrite foldl_app. cbn [foldl].
  pose proof (stamp_fields fs r) as (H1 & H2 & H3 & H4).
  set (r' := foldl _ r fs) in *. unfold RolloutIdFilter_filter. by rewrite H1, H2, H3, H4.
Qed.

(** ** The ways through the worker *)

Ltac unfold_worker :=
  unfold _worker, try_except_finally, worker_body, worker_handler,
    worker_finally, new_OpenAI, create, outcome,
    get_force_early_error_message, logger_error, logger_info, log,
    isEnabledFor, getEffectiveLevel, level_value, emit,
    raise, mret, M_ret, ret, mbind, M_bind, bind, logger_filters in *.

Ltac finish_worker Hfs :=
  simpl; rewrite ?Hfs, ?stamp_snoc;
  unfold add_events, ev_override, ev_exception, stamped; simpl;
  rewrite <- ?app_assoc; simpl; try reflexivity.

(** A request that fails a check: the exception is logged, and that is
    all; the informational call of the [finally] block is below the
    level of the logger. *)
Lemma worker_invalid w req lg rid st :
  scoped st lg rid → valid req = false →
  _worker w req lg st =
  (Returns tt, add_events [ev_exception lg rid req (validation_error req)] st).
Proof.
  intros [fs Hfs] Hv. unfold valid in Hv. unfold validation_error. unfold_worker.
  destruct (truthy_list (messages req)); simpl in *; rewrite ?Hv; simpl;
    destruct (truthy_str (force_early_error_message st)); finish_worker Hfs.
Qed.

Lemma worker_client_raises w req lg rid st e :
  scoped st lg rid → valid req = true →
  OpenAI_new w (model_base_url req) (environ w !! "FIREWORKS_API_KEY") = Raises e →
  _worker w req lg st =
  (Returns tt,
   add_events
     [EvOpenAI (model_base_url req) (environ w !! "FIREWORKS_API_KEY");
      ev_exception lg rid req e] st).
Proof.
  intros [fs Hfs] Hv Hc. unfold valid in Hv. apply andb_true_iff in Hv as [Hm Hv].
  unfold_worker. rewrite Hm, Hv. simpl. rewrite Hc. simpl.
  destruct (truthy_str (force_early_error_message st)); finish_worker Hfs.
Qed.

Lemma worker_create_raises w req lg rid st c e :
  scoped st lg rid → valid req = true →
  OpenAI_new w (model_base_url req) (environ w !! "FIREWORKS_API_KEY") = Returns c →
  chat_completions_create w c (completion_kwargs req) = Raises e →
  _worker w req lg st =
  (Returns tt,
   add_events
     [EvOpenAI (model_base_url req) (environ w !! "FIREWORKS_API_KEY");
      EvCreate c (completion_kwargs req);
      ev_exception lg rid req e] st).
Proof.
  intros [fs Hfs] Hv Hc Hr. unfold valid in Hv. apply andb_true_iff in Hv as [Hm Hv].
  unfold_worker. rewrite Hm, Hv. simpl. rewrite Hc. simpl. rewrite Hr. simpl.
  destruct (truthy_str (force_early_error_message st)); finish_worker Hfs.
Qed.

Lemma worker_create_returns w req lg rid st c r :
  scoped st lg rid → valid req = true →
  OpenAI_new w (model_base_url req) (environ w !! "FIREWORKS_API_KEY") = Returns c →
  chat_completions_create w c (completion_kwargs req) = Returns r →
  _worker w req lg st =
  (Returns tt,
   add_events
     ([EvOpenAI (model_base_url req) (environ w !! "FIREWORKS_API_KEY");
       EvCreate c (completion_kwargs req)] ++
      if truthy_str (force_early_error_message st)
      then [ev_override lg rid (default "" (force_early_error_message st));
            ev_exception lg rid req
              (RuntimeError (default "" (force_early_error_message st)))]
      else []) st).
Proof.
  intros [fs Hfs] Hv Hc Hr. unfold valid in Hv. apply andb_true_iff in Hv as [Hm Hv].
  unfold_worker. rewrite Hm, Hv. simpl. rewrite Hc. simpl. rewrite Hr. simpl.
  destruct (truthy_str (force_early_error_message st)) eqn:E; simpl; rewrite ?E;
    finish_worker Hfs.
Qed.

(** ** [init] *)

Lemma init_eq req st :
  init req st =
  (Returns tt,
   {| force_early_error_message := force_early_error_message st;
      filters :=
        <[init_logger req :=
            logger_filters st (init_logger req) ++
            [ {| filter_rollout_id := rollout_id (metadata req) |} ] ]>
          (filters st);
      events := events st;
      threads := threads st ++ [init_thread req] |}).
Proof. reflexivity. Qed.

Lemma init_logger_filters req st :
  logger_filters (init req st).2 (init_logger req) =
  logger_filters st (init_logger req) ++
  [ {| filter_rollout_id := rollout_id (metadata req) |} ].
Proof.
  rewrite init_eq. unfold logger_filters at 1. simpl.
  by rewrite lookup_insert_eq.
Qed.

Lemma init_scoped req st :
  scoped (init req st).2 (init_logger req) (rollout_id (metadata req)).
Proof. eexists. apply init_logger_filters. Qed.

Lemma emitted_add_events st st1 evs :
  events st1 = events st → emitted st (add_events evs st1) = evs.
Proof.
  intros E. unfold emitted, add_events. simpl. rewrite E.
  by rewrite drop_app_length.
Qed.

(** The events of a rollout are those of the worker. *)
Lemma rollout_emitted w req st evs :
  _worker w req (init_logger req) (init req st).2 =
    (Returns tt, add_events evs (init req st).2) →
  (rollout w req st).1 = Returns tt ∧ emitted st (rollout w req st).2 = evs.
Proof.
  intros E. unfold rollout, run. cbn [target_req target_logger init_thread].
  rewrite E. split; [done|]. by apply emitted_add_events.
Qed.

Lemma init_force req st :
  force_early_error_message (init req st).2 = force_early_error_message st.
Proof. reflexivity. Qed.

(** The four ways through [_worker] from a state where the logger is
    scoped: hypothesis [E] gives the worker's result in each. *)
Ltac by_outcome w req Hs E :=
  let Hv := fresh "Hv" in
  let Hc := fresh "Hc" in
  let Hr := fresh "Hr" in
  destruct (valid req) eqn:Hv;
  [ destruct (OpenAI_new w (model_base_url req) (environ w !! "FIREWORKS_API_KEY"))
      as [?c|?e] eqn:Hc;
    [ match type of Hc with
      | _ = Returns ?c =>
          destruct (chat_completions_create w c (completion_kwargs req))
            as [?r|?e] eqn:Hr;
          [ pose proof (worker_create_returns w req _ _ _ _ _ Hs Hv Hc Hr) as E
          | pose proof (worker_create_raises w req _ _ _ _ _ Hs Hv Hc Hr) as E ]
      end
    | pose proof (worker_client_raises w req _ _ _ _ Hs Hv Hc) as E ]
  | pose proof (worker_invalid w req _ _ _ Hs Hv) as E ].

(** ** Reading statuses off stamped records *)

Lemma terminal_statuses_stamped lg rid lvl m s evs :
  terminal_statuses rid (stamped lg rid lvl m s :: evs) =
  match s with
  | Some s' => if Status.is_terminal s' then s' :: terminal_statuses rid evs
               else terminal_statuses rid evs
  | None => terminal_statuses rid evs
  end.
Proof.
  unfold terminal_statuses, stamped. cbn. unfold terminal_status at 1. cbn.
  rewrite bool_decide_eq_true_2 by done.
  destruct s as [s'|]; [|done]. by destruct (Status.is_terminal s').
Qed.

Lemma terminal_statuses_call rid ev evs :
  records [ev] = [] →
  terminal_statuses rid (ev :: evs) = terminal_statuses rid evs.
Proof. unfold terminal_statuses. by destruct ev. Qed.

Ltac read_statuses :=
  unfold ev_override, ev_exception;
  cbn [app];
  repeat first
    [ rewrite terminal_statuses_stamped
    | rewrite terminal_statuses_call by reflexivity ];
  cbn [Status.is_terminal app].

Lemma not_valid req :
  truthy_list (messages req) = false ∨ completion_params req !! "model" = None →
  valid req = false.
Proof.
  unfold valid, dict_get. intros [-> | ->]; [done|]. apply andb_false_r.
Qed.

(** ** The worker on a request that fails its checks *)

(** C10, at [messages=[]] with the override unset: [init] starts the
    worker, and the worker logs the [ValueError] under the rollout id;
    its [Finished] record, logged at informational level, is below the
    level of the logger and does not come out, so the rollout has no
    terminal record. *)
Theorem invalid_request_no_finished_record :
  threads (init (empty_messages_request "r1") initial_state).2 =
    [init_thread (empty_messages_request "r1")] ∧
  emitted initial_state
    (rollout world_ok (empty_messages_request "r1") initial_state).2 =
    [ev_exception (init_logger (empty_messages_request "r1")) "r1"
       (empty_messages_request "r1") (ValueError "messages is required")] ∧
  terminal_statuses "r1"
    (emitted initial_state
       (rollout world_ok (empty_messages_request "r1") initial_state).2) = [].
Proof. repeat split. Qed.

(** C1, as the code has it: [init] makes no check.  On a request with
    missing or empty [messages], or without a "model" key, it returns
    normally and starts a worker; the check is the first thing the worker
    does, its [ValueError] is logged under the rollout id, and the worker
    neither constructs a client nor issues the completion call. *)
Theorem init_defers_validation w req st :
  truthy_list (messages req) = false ∨ completion_params req !! "model" = None →
  (init req st).1 = Returns tt ∧
  threads (init req st).2 = threads st ++ [init_thread req] ∧
  worker_body w req (init_logger req) (init req st).2 =
    (Raises (validation_error req), (init req st).2) ∧
  ∃ rest,
    emitted st (rollout w req st).2 =
      ev_exception (init_logger req) (rollout_id (metadata req)) req
        (validation_error req) :: rest ∧
    Forall (λ ev, is_call ev = false) (emitted st (rollout w req st).2).
Proof.
  intros Hreq. apply not_valid in Hreq.
  split; [done|]. split; [done|]. split.
  - unfold worker_body, validation_error. unfold valid in Hreq.
    destruct (truthy_list (messages req)); simpl in *; [|done].
    by rewrite Hreq.
  - pose proof (worker_invalid w req _ _ _ (init_scoped req st) Hreq) as E.
    apply rollout_emitted in E as [_ ->]. eexists. split; [done|].
    repeat constructor.
Qed.

Lemma init_defers_validation_witness :
  (init (empty_messages_request "r1") initial_state).1 = Returns tt ∧
  threads (init (empty_messages_request "r1") initial_state).2 =
    [init_thread (empty_messages_request "r1")].
Proof.
  pose proof (init_defers_validation world_ok (empty_messages_request "r1")
                initial_state (or_introl eq_refl)) as (H1 & H2 & _).
  split; [exact H1 | exact H2].
Defined.

(** C1 as stated fails: on [messages=[]] the dispatcher returns normally,
    a worker thread is started, and a record is logged for the rollout
    id. *)
Lemma init_accepts_empty_messages :
  (init (empty_messages_request "r1") initial_state).1 = Returns tt ∧
  threads (init (empty_messages_request "r1") initial_state).2 =
    [init_thread (empty_messages_request "r1")] ∧
  length (records_for "r1"
            (events (rollout world_ok (empty_messages_request "r1")
                       initial_state).2)) = 1.
Proof. repeat split. Qed.

(** ** The worker when the completion call raises *)

(** C4, with the override unset and an unreachable provider: the worker
    constructs the client, issues the call and logs the exception,
    without status; its [Finished] record does not come out, and the
    rollout has no terminal record. *)
Theorem completion_failure_no_terminal_record :
  (rollout world_down (hi_request "r1") initial_state).1 = Returns tt ∧
  emitted initial_state (rollout world_down (hi_request "r1") initial_state).2 =
    [EvOpenAI None (Some "fw-key");
     EvCreate (the_client None (Some "fw-key")) (completion_kwargs (hi_request "r1"));
     ev_exception (init_logger (hi_request "r1")) "r1" (hi_request "r1")
       connection_error] ∧
  terminal_statuses "r1"
    (emitted initial_state (rollout world_down (hi_request "r1") initial_state).2) =
  [].
Proof. repeat split. Qed.

(** ** The scenario of a successful rollout *)

(** C5, for [messages=[{role:"user", content:"hi"}]] and
    [completion_params={"model":"m"}], with the override unset and both
    calls succeeding: the completion call goes out with the merged
    arguments, and no record at all comes out of the worker, neither the
    one with the arguments nor the one with [Finished]. *)
Theorem hi_scenario_no_record :
  emitted initial_state (rollout world_ok (hi_request "r1") initial_state).2 =
    [EvOpenAI None (Some "fw-key");
     EvCreate (the_client None (Some "fw-key"))
       {[ "messages" := ArgMessages (Some [hi_message]);
          "model" := ArgParam (VStr "m") ]}] ∧
  records
    (emitted initial_state (rollout world_ok (hi_request "r1") initial_state).2) = [] ∧
  terminal_statuses "r1"
    (emitted initial_state (rollout world_ok (hi_request "r1") initial_state).2) = [].
Proof. repeat split. Qed.

(** ** Terminal records *)

(** With the override unset no rollout has a terminal record: the one
    status the worker then logs, [Finished], is logged at informational
    level. *)
Lemma override_unset_no_terminal w req st :
  truthy_str (force_early_error_message st) = false →
  terminal_statuses (rollout_id (metadata req)) (emitted st (rollout w req st).2) = [].
Proof.
  intros Hm. pose proof (init_scoped req st) as Hs.
  by_outcome w req Hs E; rewrite ?init_force, ?Hm in E;
    apply rollout_emitted in E as [_ ->]; by read_statuses.
Qed.

(** With the override set and both calls succeeding, the one terminal
    record is [Error] with the override message. *)
Lemma override_after_success w req st c r :
  truthy_str (force_early_error_message st) = true →
  valid req = true →
  OpenAI_new w (model_base_url req) (environ w !! "FIREWORKS_API_KEY") = Returns c →
  chat_completions_create w c (completion_kwargs req) = Returns r →
  terminal_statuses (rollout_id (metadata req)) (emitted st (rollout w req st).2) =
    [Status.Error (default "" (force_early_error_message st))].
Proof.
  intros Hm Hv Hc Hr.
  pose proof (worker_create_returns w req _ _ _ c r (init_scoped req st) Hv Hc Hr) as E.
  rewrite init_force, Hm in E. apply rollout_emitted in E as [_ ->].
  by read_statuses.
Qed.

(** With the override set, a rollout whose completion call raises has no
    terminal record: the override is tested after the call only, and the
    [finally] block is silent whenever the override is set. *)
Lemma override_after_failure w req st c e :
  truthy_str (force_early_error_message st) = true →
  valid req = true →
  OpenAI_new w (model_base_url req) (environ w !! "FIREWORKS_API_KEY") = Returns c →
  chat_completions_create w c (completion_kwargs req) = Raises e →
  terminal_statuses (rollout_id (metadata req)) (emitted st (rollout w req st).2) = [].
Proof.
  intros Hm Hv Hc He.
  pose proof (worker_create_raises w req _ _ _ c e (init_scoped req st) Hv Hc He) as E.
  apply rollout_emitted in E as [_ ->]. by read_statuses.
Qed.

(** C2, at [--force-early-error boom] with an unreachable provider: the
    rollout of the "hi" request ends with no terminal record at all. *)
Theorem boom_down_no_terminal_record :
  (rollout world_down (hi_request "r1") boom_state).1 = Returns tt ∧
  terminal_statuses "r1"
    (emitted boom_state (rollout world_down (hi_request "r1") boom_state).2) = [].
Proof. split; reflexivity. Qed.

(** C3, at the same input: no record of the rollout carries a status, so
    none carries [Error "boom"]; the one record is the logged exception. *)
Theorem boom_down_no_error_status :
  omap status
    (records_for "r1"
       (emitted boom_state (rollout world_down (hi_request "r1") boom_state).2)) = [] ∧
  levelno <$>
    records_for "r1"
      (emitted boom_state (rollout world_down (hi_request "r1") boom_state).2) =
  [ERROR].
Proof. split; reflexivity. Qed.

(** ** The call arguments *)

Lemma spread_lookup req k :
  spread_completion_params req !! k =
  match completion_params req !! k with
  | Some v => Some (ArgParam v)
  | None => if decide (k = "messages") then Some (ArgMessages (messages req))
            else None
  end.
Proof.
  unfold spread_completion_params.
  destruct (completion_params req !! k) as [v|] eqn:E.
  - apply lookup_union_Some_l. by rewrite lookup_fmap, E.
  - rewrite lookup_union_r by (by rewrite lookup_fmap, E).
    case_decide as Hk; [subst; apply lookup_singleton_eq|].
    by apply lookup_singleton_ne.
Qed.

(** Go through an explicit event list for the completion call in it. *)
Ltac find_create Hin :=
  unfold ev_override, ev_exception, stamped in Hin;
  cbn [app] in Hin;
  repeat (apply elem_of_cons in Hin as [Hin|Hin];
          [try discriminate Hin; try (injection Hin as _ Hin) |]);
  try (by apply elem_of_nil in Hin).

(** C6 as stated fails: [tools=[]] is present in the request and is not
    added to the call arguments. *)
Lemma empty_tools_not_added :
  tools (empty_tools_request "r1") = Some [] ∧
  completion_kwargs (empty_tools_request "r1") !! "tools" = None.
Proof. split; reflexivity. Qed.

(** C6, as the code has it: the call arguments hold every entry of
    [completion_params] (the one under "tools" gives way to the request's
    tools when those are added), [messages] under "messages" unless
    [completion_params] has that key, and the request's [tools] exactly when
    [tools] is present and not empty; nothing else.  A completion call the
    worker issues carries these arguments. *)
Theorem call_arguments_merged req :
  valid req = true →
  (∀ k v, completion_params req !! k = Some v →
          (k = "tools" → truthy_list (tools req) = false) →
          completion_kwargs req !! k = Some (ArgParam v)) ∧
  (completion_params req !! "messages" = None →
   completion_kwargs req !! "messages" = Some (ArgMessages (messages req))) ∧
  (completion_kwargs req !! "tools" = Some (ArgTools (tools req)) ↔
   truthy_list (tools req) = true) ∧
  dom (completion_kwargs req) =
    dom (completion_params req) ∪ {["messages"]} ∪
    (if truthy_list (tools req) then {["tools"]} else ∅) ∧
  ∀ w st c kw,
    EvCreate c kw ∈ emitted st (rollout w req st).2 → kw = completion_kwargs req.
Proof.
  intros Hv. split; [|split; [|split; [|split]]].
  - intros k v Hk Ht. unfold completion_kwargs.
    destruct (truthy_list (tools req)) eqn:E.
    + rewrite lookup_insert_ne by (intros <-; by specialize (Ht eq_refl)).
      by rewrite spread_lookup, Hk.
    + by rewrite spread_lookup, Hk.
  - intros Hk. unfold completion_kwargs.
    destruct (truthy_list (tools req)); rewrite ?lookup_insert_ne by done;
      by rewrite spread_lookup, Hk.
  - unfold completion_kwargs. destruct (truthy_list (tools req)).
    + by rewrite lookup_insert_eq.
    + rewrite spread_lookup. destruct (completion_params req !! "tools").
      * split; intros; discriminate.
      * case_decide; split; intros; discriminate.
  - unfold completion_kwargs, spread_completion_params.
    destruct (truthy_list (tools req));
      rewrite ?dom_insert_L, dom_union_L, dom_fmap_L, dom_singleton_L.
    + apply (comm_L (∪)).
    + by rewrite (right_id_L ∅ (∪)).
  - intros w st c' kw Hin. pose proof (init_scoped req st) as Hs.
    by_outcome w req Hs E; try discriminate;
      apply rollout_emitted in E as [_ E]; rewrite E in Hin;
      try destruct (truthy_str _); by find_create Hin.
Qed.

Lemma call_arguments_merged_witness :
  completion_kwargs (hi_request "r1") !! "model" = Some (ArgParam (VStr "m")) ∧
  completion_kwargs (hi_request "r1") !! "messages" =
    Some (ArgMessages (Some [hi_message])).
Proof.
  pose proof (call_arguments_merged (hi_request "r1") eq_refl)
    as (Hp & Hm & _).
  split.
  - apply Hp; [reflexivity | discriminate].
  - apply Hm. reflexivity.
Defined.

(** ** Exceptions stay inside the worker *)

(** The steps of the body do raise: here the completion call. *)
Lemma worker_body_create_raises w req lg st c e :
  valid req = true →
  OpenAI_new w (model_base_url req) (environ w !! "FIREWORKS_API_KEY") = Returns c →
  chat_completions_create w c (completion_kwargs req) = Raises e →
  (worker_body w req lg st).1 = Raises e.
Proof.
  intros Hv Hc Hr. unfold valid in Hv. apply andb_true_iff in Hv as [Hm Hv].
  unfold_worker. rewrite Hm, Hv. simpl. rewrite Hc. simpl. by rewrite Hr.
Qed.

Lemma worker_handler_returns req lg e st :
  (worker_handler req lg e st).1 = Returns tt.
Proof. reflexivity. Qed.

Lemma worker_finally_returns req lg st :
  (worker_finally req lg st).1 = Returns tt.
Proof.
  unfold_worker. simpl. by destruct (truthy_str (force_early_error_message st)).
Qed.

Ltac worker_cases w req st :=
  unfold_worker;
  destruct (truthy_list (messages req)); simpl;
    [destruct (truthy (dict_get (completion_params req) "model")); simpl;
     [destruct (OpenAI_new w _ _); simpl;
      [destruct (chat_completions_create w _ _); simpl|]|]|];
    destruct (truthy_str (force_early_error_message st)) eqn:E; simpl;
    rewrite ?E; simpl.

(** What the worker leaves alone: the override, the filters, the started
    threads. *)
Lemma worker_frame w req lg st :
  force_early_error_message (_worker w req lg st).2 = force_early_error_message st ∧
  filters (_worker w req lg st).2 = filters st ∧
  threads (_worker w req lg st).2 = threads st.
Proof. worker_cases w req st; done.
Qed.

(** C7: whatever the checks, the client construction, the completion call
    and the override path raise, the worker returns normally; its handler
    and its [finally] block do not raise either, and so no started thread
    ends with an exception. *)
Theorem worker_swallows_exceptions w req lg st :
  (_worker w req lg st).1 = Returns tt ∧
  (∀ e st1, (worker_handler req lg e st1).1 = Returns tt) ∧
  (∀ st1, (worker_finally req lg st1).1 = Returns tt) ∧
  (∀ t, (run w t st).1 = Returns tt) ∧
  (rollout w req st).1 = Returns tt.
Proof.
  assert (H : ∀ req lg st, (_worker w req lg st).1 = Returns tt).
  { clear. intros req lg st. worker_cases w req st; done. }
  split; [apply H|]. split; [intros; apply worker_handler_returns|].
  split; [intros; apply worker_finally_returns|].
  split; [intros t; apply H | apply H].
Qed.

(** ** The registered filters *)

Lemma filters_kept_refl st : filters_kept st st.
Proof. by intros lg. Qed.

Lemma filters_kept_trans st1 st2 st3 :
  filters_kept st1 st2 → filters_kept st2 st3 → filters_kept st1 st3.
Proof. intros H12 H23 lg. etrans; [apply H12 | apply H23]. Qed.

Lemma init_filters_kept req st : filters_kept st (init req st).2.
Proof.
  intros lg. destruct (decide (lg = init_logger req)) as [->|Hne].
  - rewrite init_logger_filters. by apply prefix_app_r.
  - rewrite init_eq. unfold logger_filters. simpl.
    by rewrite lookup_insert_ne.
Qed.

Lemma step_filters_kept st op : filters_kept st (step st op).
Proof.
  destruct op as [req|i w]; simpl; [apply init_filters_kept|].
  destruct (threads st !! i) as [t|]; [|apply filters_kept_refl].
  intros lg. unfold logger_filters, run.
  by destruct (worker_frame w (target_req t) (target_logger t) (take_thread i st))
    as (_ & -> & _).
Qed.

(** C9: [init] appends to the filters of the logger named after the
    rollout a filter for the request's rollout id; and over every sequence
    of requests and thread runs, and through [main], every logger keeps
    the filters it has, in place. *)
Theorem filters_only_grow :
  (∀ req st,
     init_logger req = __name__ +:+ "." +:+ rollout_id (metadata req) ∧
     logger_filters (init req st).2 (init_logger req) =
       logger_filters st (init_logger req) ++
       [ {| filter_rollout_id := rollout_id (metadata req) |} ]) ∧
  (∀ ops st, filters_kept st (foldl step st ops)) ∧
  (∀ args st, filters (main args st) = filters st).
Proof.
  split; [|split].
  - intros req st. split; [done | apply init_logger_filters].
  - induction ops as [|op ops IH]; intros st; simpl;
      [apply filters_kept_refl|].
    eapply filters_kept_trans; [apply step_filters_kept | apply IH].
  - done.
Qed.

(** * Further properties of the worker *)

(** ** Requests the worker turns down *)

(** X1: a "model" entry that is there but false in Python's sense (the
    empty string, [None], zero, an empty list) counts as missing: the
    worker logs [ValueError("model is required in completion_params")] and
    makes no external call. *)
Theorem falsy_model_rejected w req st :
  truthy_list (messages req) = true →
  truthy (dict_get (completion_params req) "model") = false →
  ∃ rest,
    emitted st (rollout w req st).2 =
      ev_exception (init_logger req) (rollout_id (metadata req)) req
        (ValueError "model is required in completion_params") :: rest ∧
    client_constructions (emitted st (rollout w req st).2) = [] ∧
    completion_calls (emitted st (rollout w req st).2) = [].
Proof.
  intros Hm Hmodel.
  assert (Hv : valid req = false) by (unfold valid; by rewrite Hm, Hmodel).
  pose proof (worker_invalid w req _ _ _ (init_scoped req st) Hv) as E.
  apply rollout_emitted in E as [_ ->]. unfold validation_error. rewrite Hm.
  by eexists.
Qed.

Lemma falsy_model_rejected_witness :
  ∃ rest,
    emitted initial_state
      (rollout world_ok (empty_model_request "r1") initial_state).2 =
    ev_exception (init_logger (empty_model_request "r1")) "r1"
      (empty_model_request "r1")
      (ValueError "model is required in completion_params") :: rest.
Proof.
  destruct (falsy_model_rejected world_ok (empty_model_request "r1") initial_state
              eq_refl eq_refl) as (rest & H & _).
  exists rest. exact H.
Defined.

(** X2: the check of [messages] comes first: with [messages] missing or
    empty the logged exception is [ValueError("messages is required")],
    whatever [completion_params] holds, and no external call is made. *)
Theorem missing_messages_reported_first w req st :
  truthy_list (messages req) = false →
  ∃ rest,
    emitted st (rollout w req st).2 =
      ev_exception (init_logger req) (rollout_id (metadata req)) req
        (ValueError "messages is required") :: rest ∧
    client_constructions (emitted st (rollout w req st).2) = [] ∧
    completion_calls (emitted st (rollout w req st).2) = [].
Proof.
  intros Hm.
  assert (Hv : valid req = false) by (unfold valid; by rewrite Hm).
  pose proof (worker_invalid w req _ _ _ (init_scoped req st) Hv) as E.
  apply rollout_emitted in E as [_ ->]. unfold validation_error. rewrite Hm.
  by eexists.
Qed.

Lemma missing_messages_reported_first_witness :
  client_constructions
    (emitted initial_state
       (rollout world_ok (empty_messages_request "r1") initial_state).2) = [] ∧
  completion_calls
    (emitted initial_state
       (rollout world_ok (empty_messages_request "r1") initial_state).2) = [].
Proof.
  destruct (missing_messages_reported_first world_ok (empty_messages_request "r1")
              initial_state eq_refl) as (rest & _ & H1 & H2).
  split; [exact H1 | exact H2].
Defined.

(** ** The external calls of a rollout *)

(** X3: a rollout makes at most one client construction and at most one
    completion call, with no retry: a request that passes the checks gets
    one client, built from the request's base URL and the credential in
    the environment, and one completion call with the merged arguments if
    that construction succeeded; any other request gets neither. *)
Theorem external_calls w req st :
  client_constructions (emitted st (rollout w req st).2) =
    (if valid req
     then [(model_base_url req, environ w !! "FIREWORKS_API_KEY")]
     else []) ∧
  completion_calls (emitted st (rollout w req st).2) =
    (if valid req then
       match OpenAI_new w (model_base_url req) (environ w !! "FIREWORKS_API_KEY") with
       | Returns c => [(c, completion_kwargs req)]
       | Raises _ => []
       end
     else []).
Proof.
  pose proof (init_scoped req st) as Hs.
  by_outcome w req Hs E; apply rollout_emitted in E as [_ ->];
    try destruct (truthy_str _); done.
Qed.

(** X4: on a request that passes the checks the merged arguments hold
    the "model" entry of [completion_params], and it is true in Python's
    sense: no call goes out without a model. *)
Theorem call_carries_model req :
  valid req = true →
  ∃ v, completion_params req !! "model" = Some v ∧
       completion_kwargs req !! "model" = Some (ArgParam v) ∧
       truthy v = true.
Proof.
  unfold valid, dict_get. intros [_ Hmodel]%andb_true_iff.
  destruct (completion_params req !! "model") as [v|] eqn:Hv; [|done].
  exists v. split; [done|]. split; [|done].
  unfold completion_kwargs. destruct (truthy_list (tools req));
    rewrite ?lookup_insert_ne by done; by rewrite spread_lookup, Hv.
Qed.

Lemma call_carries_model_witness :
  ∃ v, completion_params (hi_request "r1") !! "model" = Some v ∧
       completion_kwargs (hi_request "r1") !! "model" = Some (ArgParam v) ∧
       truthy v = true.
Proof. exact (call_carries_model (hi_request "r1") eq_refl). Defined.

(** ** The tag on the records *)

Lemma init_logger_inj req req' :
  init_logger req' = init_logger req →
  rollout_id (metadata req') = rollout_id (metadata req).
Proof.
  unfold init_logger, getLogger, __name__. cbn [String.append].
  intros H. by simplify_eq.
Qed.

(** A logger scoped by [init] stays scoped through whatever the process
    does next. *)
Lemma step_scoped req st op :
  scoped st (init_logger req) (rollout_id (metadata req)) →
  scoped (step st op) (init_logger req) (rollout_id (metadata req)).
Proof.
  intros [fs Hfs]. destruct op as [req'|i w]; cbn [step].
  - destruct (decide (init_logger req' = init_logger req)) as [Heq|Hne].
    + exists (logger_filters st (init_logger req)).
      rewrite <- Heq at 1. rewrite init_logger_filters, Heq.
      by rewrite (init_logger_inj _ _ Heq).
    + exists fs. rewrite <- Hfs, init_eq. unfold logger_filters. simpl.
      by rewrite lookup_insert_ne.
  - destruct (threads st !! i) as [t|]; [|by exists fs].
    exists fs. rewrite <- Hfs. unfold logger_filters, run.
    by destruct (worker_frame w (target_req t) (target_logger t) (take_thread i st))
      as (_ & -> & _).
Qed.

Lemma steps_scoped req ops : ∀ st,
  scoped st (init_logger req) (rollout_id (metadata req)) →
  scoped (foldl step st ops) (init_logger req) (rollout_id (metadata req)).
Proof.
  induction ops as [|op ops IH]; intros st Hs; simpl; [done|].
  by apply IH, step_scoped.
Qed.

Lemma run_emitted w req st evs :
  _worker w req (init_logger req) st = (Returns tt, add_events evs st) →
  emitted st (run w (init_thread req) st).2 = evs.
Proof.
  intros E. unfold run. cbn [target_req target_logger init_thread].
  rewrite E. by apply emitted_add_events.
Qed.

(** X5: the records of a worker all belong to the logger of its rollout
    and carry its rollout id, on every way through the worker; and this
    holds however many other requests are served and other workers run
    between [init] and the run of the thread it started. *)
Theorem records_tagged w req st ops :
  Forall (tagged (init_logger req) (rollout_id (metadata req)))
    (records
       (emitted (foldl step (init req st).2 ops)
          (run w (init_thread req) (foldl step (init req st).2 ops)).2)).
Proof.
  pose proof (steps_scoped req ops _ (init_scoped req st)) as Hs.
  by_outcome w req Hs E; apply run_emitted in E as ->;
    try destruct (truthy_str _); repeat constructor.
Qed.

(** ** The override path *)

(** X7: the override does not keep the worker from calling out.  With the
    override set to a message [m] and both calls succeeding, the worker
    constructs the client and issues the completion call, then logs [m]
    at error level with status [Error m]; the [RuntimeError] it raises
    next is logged too, so the record with the status is followed by one
    more error record, without status. *)
Theorem override_runs_the_call w req st m c r :
  force_early_error_message st = Some m →
  truthy_str (Some m) = true →
  valid req = true →
  OpenAI_new w (model_base_url req) (environ w !! "FIREWORKS_API_KEY") = Returns c →
  chat_completions_create w c (completion_kwargs req) = Returns r →
  emitted st (rollout w req st).2 =
    [EvOpenAI (model_base_url req) (environ w !! "FIREWORKS_API_KEY");
     EvCreate c (completion_kwargs req);
     stamped (init_logger req) (rollout_id (metadata req)) ERROR [Lit m]
       (Some (Status.Error m));
     ev_exception (init_logger req) (rollout_id (metadata req)) req
       (RuntimeError m)].
Proof.
  intros Hst Hm Hv Hc Hr.
  pose proof (worker_create_returns w req _ _ _ c r (init_scoped req st) Hv Hc Hr) as E.
  rewrite init_force, Hst, Hm in E. by apply rollout_emitted in E as [_ ->].
Qed.

Lemma override_runs_the_call_witness :
  completion_calls
    (emitted boom_state (rollout world_ok (hi_request "r1") boom_state).2) =
  [(the_client None (Some "fw-key"), completion_kwargs (hi_request "r1"))].
Proof.
  rewrite (override_runs_the_call world_ok (hi_request "r1") boom_state "boom"
             (the_client None (Some "fw-key"))
             {| completion_repr := "ChatCompletion(...)" |}
             eq_refl eq_refl eq_refl eq_refl eq_refl).
  reflexivity.
Defined.

(** ** A client that cannot be constructed *)

(** X8: the worker does not look at the credential itself: it hands
    whatever [FIREWORKS_API_KEY] holds in the environment, or [None], to
    the client.  When the construction raises, the exception is logged at
    error level, without status, and no completion call is issued,
    whether the override is set or not. *)
Theorem client_failure_logged w req st e :
  valid req = true →
  OpenAI_new w (model_base_url req) (environ w !! "FIREWORKS_API_KEY") = Raises e →
  emitted st (rollout w req st).2 =
    [EvOpenAI (model_base_url req) (environ w !! "FIREWORKS_API_KEY");
     ev_exception (init_logger req) (rollout_id (metadata req)) req e].
Proof.
  intros Hv Hc.
  pose proof (worker_client_raises w req _ _ _ e (init_scoped req st) Hv Hc) as E.
  by apply rollout_emitted in E as [_ ->].
Qed.

Lemma client_failure_logged_witness :
  client_constructions
    (emitted initial_state
       (rollout world_no_key (hi_request "r1") initial_state).2) = [(None, None)] ∧
  completion_calls
    (emitted initial_state
       (rollout world_no_key (hi_request "r1") initial_state).2) = [].
Proof.
  rewrite (client_failure_logged world_no_key (hi_request "r1")
             initial_state missing_credential eq_refl eq_refl).
  split; reflexivity.
Defined.

(** * The process as a whole *)

Lemma step_force st op :
  force_early_error_message (step st op) = force_early_error_message st.
Proof.
  destruct op as [req|i w]; cbn [step]; [apply init_force|].
  destruct (threads st !! i) as [t|]; [|done]. unfold run.
  by destruct (worker_frame w (target_req t) (target_logger t) (take_thread i st))
    as (-> & _).
Qed.

Lemma steps_force ops : ∀ st,
  force_early_error_message (foldl step st ops) = force_early_error_message st.
Proof.
  induction ops as [|op ops IH]; intros st; simpl; [done|].
  by rewrite IH, step_force.
Qed.

(** X9: the override is what the command line gave, for the life of the
    process: neither a request nor a worker ever assigns it. *)
Theorem override_fixed_at_start args ops :
  force_early_error_message (serve args ops) = force_early_error args.
Proof. unfold serve. by rewrite steps_force. Qed.

(** X10: a server started without [--force-early-error], or with an empty
    message, which the code takes for no message, gives no rollout a
    terminal record, at any point of its life and whatever the request
    and the outcome of the calls: the module logs [Finished] at
    informational level and leaves its loggers at the level of the root
    logger. *)
Theorem server_without_override args ops w req :
  truthy_str (force_early_error args) = false →
  terminal_statuses (rollout_id (metadata req))
    (emitted (serve args ops) (rollout w req (serve args ops)).2) = [].
Proof.
  intros Hm. apply override_unset_no_terminal. by rewrite override_fixed_at_start.
Qed.

Lemma server_without_override_witness :
  terminal_statuses "r2"
    (emitted
       (serve args_empty_override [OpInit (hi_request "r1"); OpRun 0 world_ok])
       (rollout world_ok (hi_request "r2")
          (serve args_empty_override [OpInit (hi_request "r1"); OpRun 0 world_ok])).2) =
  [].
Proof.
  exact (server_without_override args_empty_override
           [OpInit (hi_request "r1"); OpRun 0 world_ok] world_ok
           (hi_request "r2") eq_refl).
Defined.

(** X11: a server started with [--force-early-error m], [m] not empty,
    reports [Error m] and nothing else for every rollout whose request
    passes the checks and whose two calls succeed, at any point of its
    life. *)
Theorem server_with_override args ops w req m c r :
  force_early_error args = Some m →
  truthy_str (Some m) = true →
  valid req = true →
  OpenAI_new w (model_base_url req) (environ w !! "FIREWORKS_API_KEY") = Returns c →
  chat_completions_create w c (completion_kwargs req) = Returns r →
  terminal_statuses (rollout_id (metadata req))
    (emitted (serve args ops) (rollout w req (serve args ops)).2) =
  [Status.Error m].
Proof.
  intros Ha Hm Hv Hc Hr.
  pose proof (override_after_success w req (serve args ops) c r) as H.
  rewrite override_fixed_at_start, Ha in H. by apply H.
Qed.

Lemma server_with_override_witness :
  terminal_statuses "r2"
    (emitted (serve args_boom [OpInit (hi_request "r1")])
       (rollout world_ok (hi_request "r2")
          (serve args_boom [OpInit (hi_request "r1")])).2) =
  [Status.Error "boom"].
Proof.
  exact (server_with_override args_boom [OpInit (hi_request "r1")] world_ok
           (hi_request "r2") "boom" (the_client None (Some "fw-key"))
           {| completion_repr := "ChatCompletion(...)" |}
           eq_refl eq_refl eq_refl eq_refl eq_refl).
Defined.

(** * The test of the quickstart *)

(** X13: the test passes exactly on a row whose first message has the
    question as content, that has a second message, and whose rollout id
    is a non-empty string; it then returns the row as it is. *)
Theorem quickstart_test_passes row row' :
  Quickstart.test_remote_rollout_and_fetch_fireworks row = inr row' ↔
  row' = row ∧
  ∃ m0 m1 rest rid,
    Quickstart.messages row = m0 :: m1 :: rest ∧
    content m0 = "What is the capital of France?" ∧
    Quickstart.rollout_id (Quickstart.execution_metadata row) = Some rid ∧
    rid ≠ "".
Proof.
  unfold Quickstart.test_remote_rollout_and_fetch_fireworks. split.
  - destruct (Quickstart.messages row) as [|m0 [|m1 rest]] eqn:Hms; simpl;
      [done| |].
    + by destruct (String.eqb (content m0) _).
    + destruct (String.eqb (content m0) _) eqn:Hc; simpl; [|done].
      destruct (Quickstart.rollout_id (Quickstart.execution_metadata row))
        as [rid|] eqn:Hrid; simpl; [|done].
      destruct (String.eqb rid "") eqn:Hne; simpl; [done|].
      intros [= <-]. split; [done|]. exists m0, m1, rest, rid.
      split; [done|]. split; [by apply String.eqb_eq|]. split; [done|].
      by apply String.eqb_neq.
  - intros (-> & m0 & m1 & rest & rid & -> & Hc & -> & Hne). simpl.
    apply String.eqb_eq in Hc as ->. by apply String.eqb_neq in Hne as ->.
Qed.

(** X14: a row with fewer than two messages never passes: with no message
    the test ends in [IndexError]; with one message it fails on the
    assertion about the content when that is not the question, and on
    the assertion about the response when it is.  The rows that [rows()]
    makes are of the last kind, whatever id they were given. *)
Theorem row_without_response_fails row :
  length (Quickstart.messages row) < 2 →
  Quickstart.test_remote_rollout_and_fetch_fireworks row =
    inl (match Quickstart.messages row with
         | [] => Quickstart.IndexError "list index out of range"
         | m0 :: _ =>
             if String.eqb (content m0) "What is the capital of France?"
             then Quickstart.AssertionError
                    "Row should have a response. If this fails, we fellback to the original row."
             else Quickstart.AssertionError "Row should have correct message content"
         end) ∧
  (∀ meta, row ∈ Quickstart.rows meta →
     Quickstart.test_remote_rollout_and_fetch_fireworks row =
     inl (Quickstart.AssertionError
            "Row should have a response. If this fails, we fellback to the original row.")).
Proof.
  intros Hlen. split.
  - unfold Quickstart.test_remote_rollout_and_fetch_fireworks.
    destruct (Quickstart.messages row) as [|m0 [|m1 rest]]; simpl in *;
      [done| |lia].
    by destruct (String.eqb (content m0) _).
  - intros meta. unfold Quickstart.rows. rewrite !elem_of_cons, elem_of_nil.
    by intros [->|[->|[->|[]]]].
Qed.

Lemma row_without_response_fails_witness :
  Quickstart.test_remote_rollout_and_fetch_fireworks
    {| Quickstart.messages :=
         [ {| role := "user"; content := "What is the capital of France?" |} ];
       Quickstart.execution_metadata :=
         {| Quickstart.rollout_id := Some "generated-id" |} |} =
  inl (Quickstart.AssertionError
         "Row should have a response. If this fails, we fellback to the original row.").
Proof.
  refine (proj1 (row_without_response_fails _ _)). simpl. lia.
Defined.
